(** * Window control backend: shallow embedding of the Express servers

    The repository ships several concatenated variants of the backend
    ([src/backend/src/server.js] and [src/unnamed/part_001]).  Three of them
    matter for the coordinator:
    - the "smart window" variant (server.js 112-463, part_001 103-584):
      [windowState = {isOpen, lastUpdated, autoMode}], a manual control route,
      an automatic-decision timer and a background refresh of cached data;
    - the "command" variants (server.js 40-110 and part_001 586-665):
      [windowState = {isOpen, temp, aqi, lastUpdated}] written by the ESP32
      log route, plus a separate [currentCommand] in AUTO / OPEN / CLOSE.

    JavaScript numbers are modelled by rationals (every finite double is a
    rational, and the code only compares them with integer constants); NaN,
    [null] and [undefined] are kept apart because JavaScript's relational
    operators treat them differently. *)

From Stdlib Require Import ZArith QArith Qround Lqa String Ascii List Bool Sorted Lia.
Import ListNotations.
Open Scope string_scope.
Set Warnings "-register-all".

(** ** JavaScript values *)

(** A JSON value as it appears in a request body, plus [undefined] for a
    field that is absent. *)
Inductive jsval :=
| JUndefined
| JNull
| JBool (b : bool)
| JNum (q : Q)
| JNaN
| JStr (s : string)
| JObj (fields : list (string * jsval))
| JArr (items : list jsval).

(** JavaScript truthiness ([if (v)], [!v], [v ? a : b]). *)
Definition truthy (v : jsval) : bool :=
  match v with
  | JUndefined | JNull | JNaN => false
  | JBool b => b
  | JNum q => negb (Qeq_bool q 0)
  | JStr s => negb (String.eqb s "")
  | JObj _ | JArr _ => true
  end.

(** Strict equality [v === "lit"] against a string literal. *)
Definition is_str (v : jsval) (lit : string) : bool :=
  match v with
  | JStr s => String.eqb s lit
  | _ => false
  end.

(** [v !== undefined] *)
Definition defined (v : jsval) : bool :=
  match v with JUndefined => false | _ => true end.

(** [v === true] *)
Definition is_true_lit (v : jsval) : bool :=
  match v with JBool true => true | _ => false end.

(** [v === false] *)
Definition is_false_lit (v : jsval) : bool :=
  match v with JBool false => true | _ => false end.

(** A numeric reading field ([pollution.value], [sunlight.value],
    [windSpeed.value]): a number, NaN, [null] or [undefined]. *)
Inductive num_field :=
| FNum (q : Q)
| FNaN
| FNull
| FUndefined.

(** ToNumber on a reading field ([None] is NaN). *)
Definition to_number (v : num_field) : option Q :=
  match v with
  | FNum q => Some q
  | FNull => Some 0%Q
  | FNaN | FUndefined => None
  end.

Definition Qltb (a b : Q) : bool := negb (Qle_bool b a).

(** [v > c] on a reading field; any comparison with NaN is false. *)
Definition js_gt (v : num_field) (c : Q) : bool :=
  match to_number v with Some q => Qltb c q | None => false end.

(** [v < c] on a reading field. *)
Definition js_lt (v : num_field) (c : Q) : bool :=
  match to_number v with Some q => Qltb q c | None => false end.

(** ** Decision engine *)

(** The legacy weather shape consumed by [shouldWindowBeOpen]; each field
    stands for the [.value] of the corresponding sub-object. *)
Record weatherData := {
  pollution : num_field;
  sunlight : num_field;
  windSpeed : num_field
}.

(** [shouldWindowBeOpen] (server.js 223-238, part_001 156-171). *)
Definition shouldWindowBeOpen (w : weatherData) : bool :=
  if js_gt (pollution w) 70 then false
  else if js_gt (windSpeed w) 40 then false
  else if js_gt (sunlight w) 50 && js_lt (pollution w) 50
          && js_lt (windSpeed w) 30 then true
  else false.

(** A reading with numeric pollution [p], sunlight [s] and wind [w]. *)
Definition reading (p s w : Q) : weatherData :=
  {| pollution := FNum p; sunlight := FNum s; windSpeed := FNum w |}.

(** A callback that calls for opening, one that calls for closing. *)
Definition sunny : weatherData := reading 30 70 10.
Definition smoggy : weatherData := reading 80 90 10.

(** The normalized Open-Meteo shape (part_001 405-414), restricted to the
    fields [mapNormalizedToLegacy] reads for the decision. *)
Record normalized := {
  n_wind_speed : num_field;
  n_is_day : jsval;
  n_european_aqi : num_field
}.

(** [x ?? null] on a reading field. *)
Definition nullish_to_null (v : num_field) : num_field :=
  match v with FUndefined | FNull => FNull | _ => v end.

(** [mapNormalizedToLegacy] (part_001 438-483), decision fields only.
    [rnd] is the value of [Math.floor(Math.random() * 100)] used when
    [is_day] is [null] or [undefined]. *)
Definition mapNormalizedToLegacy (n : normalized) (rnd : Z) : weatherData :=
  let sunlightValue :=
    match n_is_day n with
    | JNull | JUndefined => FNum (inject_Z rnd)
    | d => if truthy d then FNum 100 else FNum 0
    end in
  {| pollution := nullish_to_null (n_european_aqi n);
     sunlight := sunlightValue;
     windSpeed := nullish_to_null (n_wind_speed n) |}.

(** ** Smart-window variant (server.js 112-463, part_001 103-584) *)

Module SmartWindow.

(** [windowState]: [isOpen] and [lastUpdated] are written only with
    booleans and timestamps; [autoMode] holds whatever the last request
    body carried in its [autoMode] field. Times are milliseconds. *)
Record window_state := {
  isOpen : bool;
  lastUpdated : Z;
  autoMode : jsval
}.

(** The body of [POST /api/window/control]. *)
Record control_req := {
  action : jsval;
  req_autoMode : jsval
}.

Record control_response := {
  success : bool;
  state : window_state
}.

Definition initial (now : Z) : window_state :=
  {| isOpen := false; lastUpdated := now; autoMode := JBool true |}.

(** [app.post('/api/window/control')] (server.js 336-353). *)
Definition control (req : control_req) (now : Z) (s : window_state)
  : window_state * control_response :=
  let s1 :=
    if defined (req_autoMode req)
    then {| isOpen := isOpen s; lastUpdated := lastUpdated s;
            autoMode := req_autoMode req |}
    else s in
  let s2 :=
    if is_str (action req) "open" || is_str (action req) "close"
    then {| isOpen := is_str (action req) "open"; lastUpdated := now;
            autoMode := JBool false |}
    else s1 in
  (s2, {| success := true; state := s2 |}).

(** [app.get('/api/window/status')]: [res.json(windowState)]. *)
Definition status (s : window_state) : window_state := s.

(** One run of the automatic-decision timer callback (server.js 407-450);
    [w] is the weather data the callback assembled (cached or mock). The
    callback is synchronous, so a run is one step. (part_001's callback
    awaits between its test and its write: see [SmartWindowAsync].) *)
Definition auto_tick (w : weatherData) (now : Z) (s : window_state)
  : window_state :=
  if negb (truthy (autoMode s)) then s
  else
    let shouldBeOpen := shouldWindowBeOpen w in
    if negb (Bool.eqb (isOpen s) shouldBeOpen)
    then {| isOpen := shouldBeOpen; lastUpdated := now;
            autoMode := autoMode s |}
    else s.

(** Successive timer callbacks, each with its weather data and time. *)
Fixpoint run_ticks (ticks : list (weatherData * Z)) (s : window_state)
  : window_state :=
  match ticks with
  | [] => s
  | (w, t) :: rest => run_ticks rest (auto_tick w t s)
  end.

(** The arbiter's view: the mode and the commanded position. *)
Inductive mode := AUTO | FORCE_OPEN | FORCE_CLOSE.

Definition mode_of (s : window_state) : mode :=
  if truthy (autoMode s) then AUTO
  else if isOpen s then FORCE_OPEN else FORCE_CLOSE.

Definition currentCommand (s : window_state) : bool := isOpen s.

(** Whether a callback run changes the window position. *)
Definition tick_changes (w : weatherData) (s : window_state) : bool :=
  truthy (autoMode s) && negb (Bool.eqb (isOpen s) (shouldWindowBeOpen w)).

(** [parseInt(process.env.DECISION_INTERVAL, 10) || 1800] (server.js 166):
    [None] is a missing or non-numeric variable (NaN), and 0 is falsy. *)
Definition DECISION_INTERVAL (parsed : option Z) : Z :=
  match parsed with
  | Some n => if Z.eqb n 0 then 1800%Z else n
  | None => 1800%Z
  end.

(** [Math.max(1, DECISION_INTERVAL) * 1000]: the delay requested from
    [setInterval], in ms. *)
Definition period_ms (decision_interval : Z) : Z :=
  Z.max 1 decision_interval * 1000.

(** The delay Node's [setInterval] actually uses for a requested delay:
    Node's timers replace a delay that is not in [1, TIMEOUT_MAX], with
    TIMEOUT_MAX = 2^31 - 1, by 1 ms. *)
Definition TIMEOUT_MAX : Z := 2147483647%Z.

Definition timer_delay (ms : Z) : Z :=
  if Z.leb 1 ms && Z.leb ms TIMEOUT_MAX then ms else 1%Z.

(** The timer fires at [t], [t + p], [t + 2p], ... with [p] its effective
    delay; this lists the times at which a callback changed the window
    position. *)
Fixpoint change_times (p t : Z) (ws : list weatherData) (s : window_state)
  : list Z :=
  match ws with
  | [] => []
  | w :: rest =>
      (if tick_changes w s then [t] else [])
        ++ change_times p (t + p) rest (auto_tick w t s)
  end.

End SmartWindow.

(** ** part_001's asynchronous decision callback (part_001 553-571) *)

Module SmartWindowAsync.
Import SmartWindow.

(** part_001's callback tests [windowState.autoMode], then suspends at
    [await getWeatherData()], and on resumption writes [isOpen] without
    testing the mode again. While the default key is missing from the
    Open-Meteo cache, [getWeatherData] awaits a network fetch, and
    request handlers run before the callback resumes. The control route
    (part_001 515-528) has the same text as server.js 336-353, so it is
    [SmartWindow.control]; [shouldWindowBeOpen] (part_001 156-171) is the
    same function as well. *)
Inductive event :=
| Fire (now : Z)                        (* the 30000 ms timer fires *)
| Request (req : control_req) (now : Z) (* POST /api/window/control *)
| Resolve (w : weatherData) (now : Z).  (* a pending await returns [w] *)

(** The shared [windowState] and the number of callbacks suspended at the
    await. *)
Record sys := {
  win : window_state;
  pending : nat
}.

(** The part of the callback after the await (part_001 560-566). *)
Definition resume (w : weatherData) (now : Z) (s : window_state)
  : window_state :=
  let shouldBeOpen := shouldWindowBeOpen w in
  if negb (Bool.eqb (isOpen s) shouldBeOpen)
  then {| isOpen := shouldBeOpen; lastUpdated := now;
          autoMode := autoMode s |}
  else s.

Definition step (e : event) (st : sys) : sys :=
  match e with
  | Fire _ =>
      if truthy (autoMode (win st))
      then {| win := win st; pending := S (pending st) |}
      else st
  | Request req now =>
      {| win := fst (control req now (win st)); pending := pending st |}
  | Resolve w now =>
      match pending st with
      | O => st
      | S k => {| win := resume w now (win st); pending := k |}
      end
  end.

Fixpoint run (es : list event) (st : sys) : sys :=
  match es with
  | [] => st
  | e :: rest => run rest (step e st)
  end.

(** The server as it starts: [windowState] initial, no callback pending. *)
Definition boot (now : Z) : sys := {| win := initial now; pending := 0 |}.

End SmartWindowAsync.

(** ** Command variants (server.js 40-110, part_001 586-665) *)

Module CommandServer.

Inductive command := AUTO | OPEN | CLOSE.

Definition command_eqb (a b : command) : bool :=
  match a, b with
  | AUTO, AUTO | OPEN, OPEN | CLOSE, CLOSE => true
  | _, _ => false
  end.

(** [windowState]: every field but [lastUpdated] is whatever the ESP32
    last posted. *)
Record window_state := {
  isOpen : jsval;
  temp : jsval;
  aqi : jsval;
  lastUpdated : Z
}.

Record state := {
  windowState : window_state;
  currentCommand : command
}.

Definition initial (now : Z) : state :=
  {| windowState := {| isOpen := JBool false; temp := JNum 0; aqi := JNum 0;
                       lastUpdated := now |};
     currentCommand := AUTO |}.

Record log_req := {
  l_temp : jsval;
  l_aqi : jsval;
  l_isOpen : jsval
}.

Record log_response := {
  log_success : bool;
  command_out : command
}.

(** [app.post('/api/window/log')] (part_001 606-622, server.js 60-76). *)
Definition log (req : log_req) (now : Z) (s : state) : state * log_response :=
  let s' := {| windowState := {| isOpen := l_isOpen req; temp := l_temp req;
                                 aqi := l_aqi req; lastUpdated := now |};
               currentCommand := currentCommand s |} in
  (s', {| log_success := true; command_out := currentCommand s' |}).

(** [{ ...windowState, autoMode: (currentCommand === 'AUTO') }] *)
Record status_view := {
  v_isOpen : jsval;
  v_temp : jsval;
  v_aqi : jsval;
  v_lastUpdated : Z;
  v_autoMode : bool
}.

Definition view (s : state) : status_view :=
  let w := windowState s in
  {| v_isOpen := isOpen w; v_temp := temp w; v_aqi := aqi w;
     v_lastUpdated := lastUpdated w;
     v_autoMode := command_eqb (currentCommand s) AUTO |}.

(** [app.get('/api/window/status')] (part_001 655-660, server.js 101-106). *)
Definition status (s : state) : status_view := view s.

Record control_req := {
  action : jsval;
  req_autoMode : jsval
}.

Record control_response := {
  success : bool;
  resp_state : status_view
}.

(** [app.post('/api/window/control')], server.js 79-98: [autoMode === true]
    is tested first. *)
Definition control_v2 (req : control_req) (s : state)
  : state * control_response :=
  let cmd :=
    if is_true_lit (req_autoMode req) then AUTO
    else if is_str (action req) "open" then OPEN
    else if is_str (action req) "close" then CLOSE
    else currentCommand s in
  let s' := {| windowState := windowState s; currentCommand := cmd |} in
  (s', {| success := true; resp_state := view s' |}).

(** [app.post('/api/window/control')], part_001 625-652: the action is
    tested first, then [autoMode === true], then [autoMode === false]. *)
Definition control_v3 (req : control_req) (s : state)
  : state * control_response :=
  let cmd :=
    if is_str (action req) "open" then OPEN
    else if is_str (action req) "close" then CLOSE
    else if is_true_lit (req_autoMode req) then AUTO
    else if is_false_lit (req_autoMode req) then
      (if truthy (isOpen (windowState s)) then OPEN else CLOSE)
    else currentCommand s in
  let s' := {| windowState := windowState s; currentCommand := cmd |} in
  (s', {| success := true; resp_state := view s' |}).

(** The command an action string selects. *)
Definition cmd_of (a : string) : command :=
  if String.eqb a "open" then OPEN else CLOSE.

End CommandServer.

(** ** Background refresh of external data (server.js 159-217) *)

Module ExternalCache.

(** The outcome of one [fetch(url)] followed by [resp.json()]. *)
Inductive fetch_outcome :=
| NetworkError                      (* [fetch] rejects *)
| HttpError (status : Z)            (* [!resp.ok] *)
| ParseError                        (* [resp.json()] rejects *)
| HttpOk (body : jsval).            (* [resp.ok], body parsed *)

(** [safeFetchJson] (server.js 169-181): every failure becomes [null]. *)
Definition safeFetchJson (o : fetch_outcome) : jsval :=
  match o with
  | HttpOk body => body
  | NetworkError | HttpError _ | ParseError => JNull
  end.

Record entry := {
  source : string;
  fetchedAt : Z;
  data : jsval
}.

(** The [cached] object. *)
Record cache := {
  weather : option entry;
  pollution_c : option entry;
  lastFetched : option Z
}.

(** Which API keys are set in the environment. *)
Record env := {
  meteosourceKey : bool;
  iqairKey : bool;
  openKey : bool
}.

(** [refreshExternalData] (server.js 184-212). [wo] and [po] are the
    outcomes of the weather and pollution fetches (unused when the
    corresponding key is absent); [now] is the completion time. *)
Definition refreshExternalData (e : env) (wo po : fetch_outcome) (now : Z)
  (c : cache) : cache :=
  let w :=
    if meteosourceKey e then
      let d := safeFetchJson wo in
      if truthy d
      then Some {| source := "meteosource"; fetchedAt := now; data := d |}
      else weather c
    else weather c in
  let p :=
    if iqairKey e then
      let d := safeFetchJson po in
      if truthy d
      then Some {| source := "iqair"; fetchedAt := now; data := d |}
      else pollution_c c
    else if openKey e then
      let d := safeFetchJson po in
      if truthy d
      then Some {| source := "openweather"; fetchedAt := now; data := d |}
      else pollution_c c
    else pollution_c c in
  {| weather := w; pollution_c := p; lastFetched := Some now |}.

(** A fetch that failed: network, HTTP status or parse error. *)
Definition failed (o : fetch_outcome) : bool :=
  match o with HttpOk _ => false | _ => true end.

(** [app.get('/api/weather')] (server.js 243-254): the cached weather entry,
    or a mock reading [mock] stamped [now]. *)
Definition weather_route (c : cache) (mock : jsval) (now : Z)
  : string * Z * jsval :=
  match weather c with
  | Some en => (source en, fetchedAt en, data en)
  | None => ("mock", now, mock)
  end.

(** [app.get('/api/pollution')] (server.js 323-328): the cached entry or a
    404. *)
Definition pollution_route (c : cache) : option (string * Z * jsval) :=
  match pollution_c c with
  | Some en => Some (source en, fetchedAt en, data en)
  | None => None
  end.

(** Sample cache entry and environments. *)
Definition old_entry : entry :=
  {| source := "meteosource"; fetchedAt := 0;
     data := JObj [("current", JObj [])] |}.

Definition meteo_only : env :=
  {| meteosourceKey := true; iqairKey := false; openKey := false |}.

Definition iqair_only : env :=
  {| meteosourceKey := false; iqairKey := true; openKey := false |}.

End ExternalCache.

(** ** Weather synthesis used by the recommendation route and the timer *)

Module Synthesis.

(** [Math.round] on a finite number: [floor(x + 0.5)]. *)
Definition js_round (x : Q) : Z := Qfloor (x + (1 # 2)).

(** OpenWeather's 1-5 index mapped to an AQI value (server.js 369-370,
    419): [Math.min(300, Math.round(((a - 1) / 4) * 250 + 50))]. *)
Definition openweather_pollution (a : Q) : Z :=
  Z.min 300 (js_round ((a - 1) / 4 * 250 + 50)).

(** [sunlightVal || 50] where
    [sunlightVal = typeof current.sunlight === 'number' ? current.sunlight : null]
    (server.js 377, 384, 423, 431); a NaN or a zero also falls back to 50. *)
Definition synth_sunlight (current_sunlight : jsval) : Q :=
  match current_sunlight with
  | JNum q => if Qeq_bool q 0 then 50 else q
  | _ => 50
  end.

End Synthesis.

(** ** Open-Meteo cache (part_001 254-281, 419-435, 486-509) *)

Module OpenMeteoCache.

(** One cached value: [{ fetchedAt: Date.now(), data: result }]. *)
Record entry := {
  fetchedAt : Z;
  data : jsval
}.

(** [app.locals.openMeteoCache], a plain object keyed by ["lat,lon"], as
    an association list in property order; keys are distinct. *)
Definition cache := list (string * entry).

Fixpoint obj_get (k : string) (c : cache) : option entry :=
  match c with
  | [] => None
  | (k', v) :: rest => if String.eqb k k' then Some v else obj_get k rest
  end.

(** [obj[k] = v]: an existing property keeps its place, a new one is
    appended. *)
Fixpoint obj_set (k : string) (v : entry) (c : cache) : cache :=
  match c with
  | [] => [(k, v)]
  | (k', v') :: rest =>
      if String.eqb k k' then (k', v) :: rest else (k', v') :: obj_set k v rest
  end.

(** [Object.keys(obj)] *)
Definition obj_keys (c : cache) : list string := map fst c.

(** [`${lat},${lon}`] *)
Definition cacheKey (lat lon : string) : string := lat ++ "," ++ lon.

(** [s.split(c)] for a one-character separator. *)
Fixpoint split_char (c : Ascii.ascii) (s : string) : list string :=
  match s with
  | EmptyString => [""]
  | String a rest =>
      let parts := split_char c rest in
      if Ascii.eqb a c then "" :: parts
      else match parts with
           | p :: ps => String a p :: ps
           | [] => [String a ""]
           end
  end.

(** [const [lat, lon] = key.split(',')]: a missing piece is [undefined]. *)
Definition split_key (key : string) : option string * option string :=
  match split_char "," key with
  | [] => (None, None)
  | [a] => (Some a, None)
  | a :: b :: _ => (Some a, Some b)
  end.

Inductive route_response :=
| ServedCached (d : jsval)     (* [{ cached: true, ...cached.data }] *)
| ServedFresh (d : jsval)      (* [{ cached: false, ...result }] *)
| ServerError.                 (* status 500 *)

(** [app.get('/api/external/open-meteo')] (part_001 254-281); [fetched] is
    the outcome of [fetchAndNormalizeOpenMeteo(lat, lon)], [None] when it
    throws. *)
Definition open_meteo_route (lat lon : string) (ttl now : Z)
  (fetched : option jsval) (c : cache) : cache * route_response :=
  let key := cacheKey lat lon in
  match obj_get key c with
  | Some en =>
      if Z.ltb (now - fetchedAt en) ttl then (c, ServedCached (data en))
      else match fetched with
           | Some r => (obj_set key {| fetchedAt := now; data := r |} c,
                        ServedFresh r)
           | None => (c, ServerError)
           end
  | None =>
      match fetched with
      | Some r => (obj_set key {| fetchedAt := now; data := r |} c,
                   ServedFresh r)
      | None => (c, ServerError)
      end
  end.

(** The body of the scheduled refresh (part_001 421-434): for every key
    present when the callback starts, refetch with the coordinates read
    back from the key. [fetch] gives the outcome for those coordinates and
    [clock] the completion time of each key's fetch. *)
Fixpoint refresh_keys (keys : list string)
  (fetch : option string -> option string -> option jsval)
  (clock : string -> Z) (c : cache) : cache :=
  match keys with
  | [] => c
  | key :: rest =>
      let c' :=
        let '(lat, lon) := split_key key in
        match fetch lat lon with
        | Some r => obj_set key {| fetchedAt := clock key; data := r |} c
        | None => c
        end in
      refresh_keys rest fetch clock c'
  end.

Definition scheduled_refresh
  (fetch : option string -> option string -> option jsval)
  (clock : string -> Z) (c : cache) : cache :=
  refresh_keys (obj_keys c) fetch clock c.

(** What the scheduled refresh leaves under key [k]. *)
Definition refreshed (fetch : option string -> option string -> option jsval)
  (clock : string -> Z) (c : cache) (k : string) : option entry :=
  match fetch (fst (split_key k)) (snd (split_key k)) with
  | Some r => Some {| fetchedAt := clock k; data := r |}
  | None => obj_get k c
  end.

Inductive weather_source :=
| FromCache (d : jsval)
| FromFetch (d : jsval)
| FromMock.

(** [getWeatherData] (part_001 486-509) for the default key: the data
    handed to [mapNormalizedToLegacy], or the mock generator. *)
Definition getWeatherData (key : string) (now : Z) (fetched : option jsval)
  (c : cache) : cache * weather_source :=
  match obj_get key c with
  | Some en => (c, FromCache (data en))
  | None =>
      match fetched with
      | Some r => (obj_set key {| fetchedAt := now; data := r |} c, FromFetch r)
      | None => (c, FromMock)
      end
  end.

End OpenMeteoCache.

(** ** ESP32 firmware loop (part_001 46-102) *)

Module Firmware.

Definition SEUIL_TEMP : Q := 30.
Definition SEUIL_POLLUTION : Z := 50.

(** The fields read from the Open-Meteo answer; [None] is a JSON [null]
    or a missing field. *)
Record doc := {
  temperature_2m : option Q;
  european_aqi : option Z
}.

(** [float temp = doc["current"]["temperature_2m"]]: a null reads as 0. *)
Definition temp_of (d : doc) : Q :=
  match temperature_2m d with Some t => t | None => 0 end.

(** [int aqi = ...; if (...isNull()) aqi = 0;] *)
Definition aqi_of (d : doc) : Z :=
  match european_aqi d with Some a => a | None => 0%Z end.

(** One iteration of [loop()]: the servo angle written, if any. [code] is
    [http.GET()]'s result and [parsed] the deserialized payload ([None]
    on a [DeserializationError]). *)
Definition loop_step (wifi : bool) (code : Z) (parsed : option doc)
  : option Z :=
  if negb wifi then None
  else if Z.ltb 0 code then
    match parsed with
    | None => None
    | Some d =>
        if Qltb SEUIL_TEMP (temp_of d) || Z.ltb SEUIL_POLLUTION (aqi_of d)
        then Some 0%Z
        else Some 90%Z
    end
  else None.

End Firmware.

(** ** Client applications *)

Module Clients.

(** A control request body as the clients serialize it. *)
Record body := {
  b_action : jsval;
  b_autoMode : jsval
}.

(** mobile [sendCommand] (mobile/App.tsx 107-116):
    [{ action, autoMode: false }]. *)
Definition mobile_sendCommand (a : string) : body :=
  {| b_action := JStr a; b_autoMode := JBool false |}.

(** mobile [toggleAutoMode(value)] (mobile/App.tsx 118-127). *)
Definition mobile_toggleAutoMode (v : bool) : body :=
  {| b_action := JUndefined; b_autoMode := JBool v |}.

(** web [controlWindow] (web/src/App.tsx 67-84): [{ action }]. *)
Definition web_controlWindow (a : string) : body :=
  {| b_action := JStr a; b_autoMode := JUndefined |}.

(** web [toggleAutoMode] (web/src/App.tsx 86-104):
    [{ autoMode: !windowState.autoMode }]. *)
Definition web_toggleAutoMode (shown : jsval) : body :=
  {| b_action := JUndefined; b_autoMode := JBool (negb (truthy shown)) |}.

Definition to_sw (b : body) : SmartWindow.control_req :=
  {| SmartWindow.action := b_action b; SmartWindow.req_autoMode := b_autoMode b |}.

Definition to_cmd (b : body) : CommandServer.control_req :=
  {| CommandServer.action := b_action b;
     CommandServer.req_autoMode := b_autoMode b |}.

Inductive color := Green | Yellow | Red.

(** [getStatusColor] (web/src/App.tsx 124-128). *)
Definition getStatusColor (value low high : Q) : color :=
  if Qltb value low then Green
  else if Qltb value high then Yellow
  else Red.

Definition color_rank (c : color) : nat :=
  match c with Green => 0 | Yellow => 1 | Red => 2 end.

End Clients.

(** * Properties *)

(** ** Rational comparisons *)

Lemma Qltb_true (a b : Q) : Qltb a b = true <-> (a < b)%Q.
Proof.
  unfold Qltb. rewrite negb_true_iff. split; intro H.
  - apply Qnot_le_lt. intro Hle. apply Qle_bool_iff in Hle. congruence.
  - destruct (Qle_bool b a) eqn:E; [|reflexivity].
    apply Qle_bool_iff in E. exfalso. apply (Qlt_not_le _ _ H E).
Qed.

Lemma Qltb_false (a b : Q) : Qltb a b = false <-> (b <= a)%Q.
Proof.
  unfold Qltb. rewrite negb_false_iff. apply Qle_bool_iff.
Qed.

Lemma shouldWindowBeOpen_reading (p s w : Q) :
  shouldWindowBeOpen (reading p s w)
  = if Qltb 70 p then false
    else if Qltb 40 w then false
    else Qltb 50 s && Qltb p 50 && Qltb w 30.
Proof.
  unfold shouldWindowBeOpen, reading, js_gt, js_lt; simpl.
  destruct (Qltb 70 p), (Qltb 40 w); try reflexivity.
  destruct (Qltb 50 s && Qltb p 50 && Qltb w 30); reflexivity.
Qed.

(** [C3] For numeric readings [decide] closes when pollution exceeds 70 or
    wind exceeds 40, opens when sunlight exceeds 50 with pollution below 50
    and wind below 30, and closes otherwise; Scenarios A and B. *)
Theorem decide_thresholds :
  (forall p s w : Q, (70 < p \/ 40 < w)%Q ->
     shouldWindowBeOpen (reading p s w) = false) /\
  (forall p s w : Q, (50 < s /\ p < 50 /\ w < 30)%Q ->
     shouldWindowBeOpen (reading p s w) = true) /\
  (forall p s w : Q, ~ (70 < p \/ 40 < w)%Q ->
     ~ (50 < s /\ p < 50 /\ w < 30)%Q ->
     shouldWindowBeOpen (reading p s w) = false) /\
  shouldWindowBeOpen (reading 80 90 10) = false /\
  shouldWindowBeOpen (reading 30 70 10) = true.
Proof.
  repeat split.
  - intros p s w [H|H]; rewrite shouldWindowBeOpen_reading.
    + apply Qltb_true in H. now rewrite H.
    + apply Qltb_true in H. rewrite H. now destruct (Qltb 70 p).
  - intros p s w (Hs & Hp & Hw). rewrite shouldWindowBeOpen_reading.
    assert (E1 : Qltb 70 p = false).
    { apply Qltb_false. apply Qle_trans with 50%Q; [apply Qlt_le_weak; exact Hp|].
      unfold Qle; simpl; lia. }
    assert (E2 : Qltb 40 w = false).
    { apply Qltb_false. apply Qle_trans with 30%Q; [apply Qlt_le_weak; exact Hw|].
      unfold Qle; simpl; lia. }
    rewrite E1, E2.
    apply Qltb_true in Hs, Hp, Hw. now rewrite Hs, Hp, Hw.
  - intros p s w Hc Ho. rewrite shouldWindowBeOpen_reading.
    destruct (Qltb 70 p) eqn:E1.
    { apply Qltb_true in E1. exfalso; tauto. }
    destruct (Qltb 40 w) eqn:E2.
    { apply Qltb_true in E2. exfalso; tauto. }
    destruct (Qltb 50 s) eqn:E3; [|reflexivity].
    destruct (Qltb p 50) eqn:E4; [|reflexivity].
    destruct (Qltb w 30) eqn:E5; [|reflexivity].
    apply Qltb_true in E3, E4, E5. exfalso; tauto.
Qed.

Lemma decide_thresholds_witness :
  (70 < 80 \/ 40 < 10)%Q /\ (50 < 70 /\ 30 < 50 /\ 10 < 30)%Q /\
  ~ (70 < 60 \/ 40 < 10)%Q /\ ~ (50 < 70 /\ 60 < 50 /\ 10 < 30)%Q /\
  shouldWindowBeOpen (reading 80 90 10) = false /\
  shouldWindowBeOpen (reading 30 70 10) = true /\
  shouldWindowBeOpen (reading 60 70 10) = false.
Proof.
  assert (H1 : (70 < 80 \/ 40 < 10)%Q) by (left; reflexivity).
  assert (H2 : (50 < 70 /\ 30 < 50 /\ 10 < 30)%Q) by (repeat split; reflexivity).
  assert (H3 : ~ (70 < 60 \/ 40 < 10)%Q)
    by (intros [H|H]; unfold Qlt in H; simpl in H; lia).
  assert (H4 : ~ (50 < 70 /\ 60 < 50 /\ 10 < 30)%Q)
    by (intros (_ & H & _); unfold Qlt in H; simpl in H; lia).
  destruct decide_thresholds as (A & B & C & D & E).
  exact (conj H1 (conj H2 (conj H3 (conj H4
          (conj (A 80 90 10 H1) (conj (B 30 70 10 H2) (C 60 70 10 H3 H4))))))).
Defined.

(** [C10] A missing European AQI becomes a [null] pollution value, which
    JavaScript compares as 0: with sunlight above 50 and wind below 30 the
    decision is to open. *)
Theorem null_aqi_opens (n : normalized) (rnd : Z) (s w : Q) :
  (n_european_aqi n = FNull \/ n_european_aqi n = FUndefined) ->
  sunlight (mapNormalizedToLegacy n rnd) = FNum s ->
  windSpeed (mapNormalizedToLegacy n rnd) = FNum w ->
  (50 < s)%Q -> (w < 30)%Q ->
  pollution (mapNormalizedToLegacy n rnd) = FNull /\
  shouldWindowBeOpen (mapNormalizedToLegacy n rnd) = true.
Proof.
  intros Haqi Hs Hw Hs50 Hw30.
  assert (Hp : pollution (mapNormalizedToLegacy n rnd) = FNull).
  { unfold mapNormalizedToLegacy; simpl.
    destruct Haqi as [E|E]; rewrite E; reflexivity. }
  split; [exact Hp|].
  unfold shouldWindowBeOpen, js_gt, js_lt. rewrite Hp, Hs, Hw. simpl.
  assert (E2 : Qltb 40 w = false).
  { apply Qltb_false. apply Qle_trans with 30%Q; [apply Qlt_le_weak; exact Hw30|].
    unfold Qle; simpl; lia. }
  rewrite E2. apply Qltb_true in Hs50, Hw30. now rewrite Hs50, Hw30.
Qed.

Lemma null_aqi_opens_witness :
  pollution (mapNormalizedToLegacy
               {| n_wind_speed := FNum 10; n_is_day := JBool true;
                  n_european_aqi := FNull |} 0) = FNull /\
  shouldWindowBeOpen (mapNormalizedToLegacy
               {| n_wind_speed := FNum 10; n_is_day := JBool true;
                  n_european_aqi := FNull |} 0) = true.
Proof.
  apply (null_aqi_opens
           {| n_wind_speed := FNum 10; n_is_day := JBool true;
              n_european_aqi := FNull |} 0 100 10);
    [left; reflexivity | reflexivity | reflexivity | reflexivity | reflexivity].
Defined.

(** ** Manual control against the automatic-decision timer *)

Module SmartWindowFacts.
Import SmartWindow.
Local Open Scope Z_scope.

Lemma auto_tick_manual (w : weatherData) (now : Z) (s : window_state) :
  truthy (autoMode s) = false -> auto_tick w now s = s.
Proof. intros H. unfold auto_tick. now rewrite H. Qed.

Lemma run_ticks_manual (ticks : list (weatherData * Z)) (s : window_state) :
  truthy (autoMode s) = false -> run_ticks ticks s = s.
Proof.
  revert s; induction ticks as [|[w t] rest IH]; intros s H; simpl.
  - reflexivity.
  - rewrite (auto_tick_manual w t s H). now apply IH.
Qed.

Lemma control_action_state (a : string) (m : jsval) (now : Z)
  (s : window_state) :
  a = "open" \/ a = "close" ->
  fst (control {| action := JStr a; req_autoMode := m |} now s)
  = {| isOpen := String.eqb a "open"; lastUpdated := now;
       autoMode := JBool false |}.
Proof.
  intros [-> | ->]; unfold control; simpl; reflexivity.
Qed.

(** In server.js, after a control request carrying action "open" or
    "close", every later run of the (synchronous) automatic-decision
    callback leaves the commanded position at that action's value and the
    mode manual. *)
Theorem manual_override_sticks (a : string) (m : jsval) (now : Z)
  (s : window_state) (ticks : list (weatherData * Z)) :
  a = "open" \/ a = "close" ->
  let s' := fst (control {| action := JStr a; req_autoMode := m |} now s) in
  currentCommand (run_ticks ticks s') = String.eqb a "open" /\
  mode_of (run_ticks ticks s') <> AUTO.
Proof.
  intros Ha s'. subst s'. rewrite (control_action_state a m now s Ha).
  rewrite run_ticks_manual by reflexivity.
  unfold currentCommand, mode_of; simpl. split; [reflexivity|].
  destruct (String.eqb a "open"); discriminate.
Qed.

(** Scenario C: force open, then a callback whose weather says "close". *)
Lemma manual_override_sticks_witness :
  let s' := fst (control {| action := JStr "open"; req_autoMode := JUndefined |}
                         0 (initial 0)) in
  currentCommand (run_ticks [(reading 80 90 10, 30000%Z)] s') = true /\
  mode_of (run_ticks [(reading 80 90 10, 30000%Z)] s') <> AUTO.
Proof.
  exact (manual_override_sticks "open" JUndefined 0 (initial 0)
           [(reading 80 90 10, 30000%Z)] (or_introl eq_refl)).
Defined.

(** In server.js, while the mode is not AUTO (autoMode falsy), a run of the
    automatic-decision callback leaves the commanded position, and indeed
    the whole state, unchanged. *)
Theorem auto_noop_when_manual (w : weatherData) (now : Z) (s : window_state) :
  mode_of s <> AUTO ->
  isOpen (auto_tick w now s) = isOpen s /\ auto_tick w now s = s.
Proof.
  intros H.
  assert (Hf : truthy (autoMode s) = false).
  { unfold mode_of in H. destruct (truthy (autoMode s)); [congruence|reflexivity]. }
  rewrite (auto_tick_manual w now s Hf). split; reflexivity.
Qed.

Lemma auto_noop_when_manual_witness :
  let s := {| isOpen := true; lastUpdated := 0; autoMode := JBool false |} in
  mode_of s <> AUTO /\
  isOpen (auto_tick (reading 80 90 10) 5 s) = isOpen s /\
  auto_tick (reading 80 90 10) 5 s = s.
Proof.
  assert (H : mode_of {| isOpen := true; lastUpdated := 0;
                         autoMode := JBool false |} <> AUTO) by discriminate.
  exact (conj H (auto_noop_when_manual (reading 80 90 10) 5 _ H)).
Defined.

(** [C6] With [DECISION_INTERVAL=2147484] the requested delay exceeds
    TIMEOUT_MAX, so Node runs the callback every millisecond: with auto
    mode on and the mock weather calling for opening and then for closing,
    two automatic changes of [isOpen] happen 1 ms apart, although the
    configured decision interval is 2147484 s. *)
Theorem decision_interval_overflow :
  let d := DECISION_INTERVAL (Some 2147484) in
  let p := timer_delay (period_ms d) in
  p = 1 /\
  change_times p 0 [sunny; smoggy] (initial 0) = [0; 1] /\
  1 - 0 < d * 1000.
Proof. vm_compute. repeat split; reflexivity. Qed.

End SmartWindowFacts.

(** ** Manual control routes of the command variants *)

(** ** part_001: the manual command and the automatic callback interleave *)

Module SmartWindowRace.
Import SmartWindow SmartWindowAsync.
Local Open Scope Z_scope.

(** At start-up (auto mode on, nothing cached): the timer fires and the
    callback awaits the Open-Meteo fetch; a request forces the window
    open; the fetch returns weather calling for closing. *)
Definition forced (t : Z) : sys :=
  run [Fire t; Request {| action := JStr "open"; req_autoMode := JUndefined |}
                       (t + 100)] (boot 0).

(** [C1] In part_001 a manual "open" does not stick: after the request the
    command is open and the mode FORCE_OPEN, and the suspended callback,
    once its weather data arrives, sets the command back to closed with no
    other control request in between. *)
Theorem manual_override_lost :
  currentCommand (win (forced 30000)) = true /\
  mode_of (win (forced 30000)) = FORCE_OPEN /\
  currentCommand (win (step (Resolve smoggy 30200) (forced 30000))) = false.
Proof. vm_compute. repeat split; reflexivity. Qed.

(** [C2] In part_001 the automatic decision writes the commanded position
    whatever the mode: whenever a callback is suspended at the await, its
    resumption sets [isOpen] to its decision, also when the mode is no
    longer AUTO. *)
Theorem auto_write_in_manual_mode (w : weatherData) (now : Z) (st : sys) :
  (0 < pending st)%nat -> mode_of (win st) <> AUTO ->
  isOpen (win (step (Resolve w now) st)) = shouldWindowBeOpen w.
Proof.
  intros Hp _. destruct st as [s [|k]]; simpl in *; [lia|].
  unfold resume. destruct (Bool.eqb (isOpen s) (shouldWindowBeOpen w)) eqn:E;
    simpl; [|reflexivity].
  now apply Bool.eqb_prop in E.
Qed.

(** At start-up, after the timer fired and a request forced the window
    open, the closing weather data closes it again. *)
Lemma auto_write_in_manual_mode_witness :
  (0 < pending (forced 30000))%nat /\ mode_of (win (forced 30000)) <> AUTO /\
  isOpen (win (step (Resolve smoggy 30200) (forced 30000))) = false /\
  isOpen (win (forced 30000)) = true.
Proof.
  assert (Hp : (0 < pending (forced 30000))%nat) by (vm_compute; lia).
  assert (Hm : mode_of (win (forced 30000)) <> AUTO) by (vm_compute; discriminate).
  refine (conj Hp (conj Hm (conj _ eq_refl))).
  exact (auto_write_in_manual_mode smoggy 30200 (forced 30000) Hp Hm).
Defined.

End SmartWindowRace.

Module CommandServerFacts.
Import CommandServer.
Local Open Scope Z_scope.

Lemma state_eta (s : state) :
  {| windowState := windowState s; currentCommand := currentCommand s |} = s.
Proof. destruct s; reflexivity. Qed.

(** [C4] [autoMode: false] without an action does not keep the commanded
    position: with the command CLOSE and the device last reporting
    [isOpen: true], the command becomes OPEN. *)
Lemma freeze_not_commanded :
  let s := {| windowState := {| isOpen := JBool true; temp := JNum 20;
                                aqi := JNum 10; lastUpdated := 0 |};
              currentCommand := CLOSE |} in
  currentCommand s = CLOSE /\
  currentCommand (fst (control_v3 {| action := JUndefined;
                                     req_autoMode := JBool false |} s)) = OPEN.
Proof. split; reflexivity. Qed.

(** [C4, amended] [autoMode: false] without an action freezes the position
    the device last reported: the command becomes OPEN when the reported
    [isOpen] is truthy and CLOSE otherwise, windowState is untouched and the
    response reports manual mode; Scenario E follows after any device log
    with [isOpen: true]. *)
Theorem freeze_reported_position (s : state) (r : log_req) (now : Z) :
  let '(s', resp) := control_v3 {| action := JUndefined;
                                   req_autoMode := JBool false |} s in
  (currentCommand s' = (if truthy (isOpen (windowState s)) then OPEN else CLOSE) /\
   windowState s' = windowState s /\
   v_autoMode (resp_state resp) = false) /\
  (l_isOpen r = JBool true ->
   currentCommand (fst (control_v3 {| action := JUndefined;
                                      req_autoMode := JBool false |}
                                   (fst (log r now s)))) = OPEN).
Proof.
  simpl. split.
  - destruct (truthy (isOpen (windowState s))); repeat split.
  - intros H. simpl. now rewrite H.
Qed.

Lemma freeze_reported_position_witness :
  currentCommand (fst (control_v3 {| action := JUndefined;
                                     req_autoMode := JBool false |}
                      (fst (log {| l_temp := JNum 21; l_aqi := JNum 30;
                                   l_isOpen := JBool true |} 10 (initial 0)))))
  = OPEN.
Proof.
  pose proof (freeze_reported_position (initial 0)
                {| l_temp := JNum 21; l_aqi := JNum 30;
                   l_isOpen := JBool true |} 10) as H.
  simpl in H. destruct H as [_ H]. exact (H eq_refl).
Defined.

(** [C5] A control request with neither [action] nor [autoMode] is not
    rejected: the response carries [success: true]. *)
Lemma empty_request_accepted :
  success (snd (control_v3 {| action := JUndefined;
                              req_autoMode := JUndefined |} (initial 0)))
  = true.
Proof. reflexivity. Qed.

(** [C5, amended] A control request with neither [action] nor [autoMode]
    is accepted with [success: true] and the current state, and leaves the
    state unchanged, in all three variants of the route. *)
Theorem empty_request_noop (s : state) (sw : SmartWindow.window_state)
  (now : Z) :
  control_v3 {| action := JUndefined; req_autoMode := JUndefined |} s
  = (s, {| success := true; resp_state := view s |}) /\
  control_v2 {| action := JUndefined; req_autoMode := JUndefined |} s
  = (s, {| success := true; resp_state := view s |}) /\
  SmartWindow.control {| SmartWindow.action := JUndefined;
                         SmartWindow.req_autoMode := JUndefined |} now sw
  = (sw, {| SmartWindow.success := true; SmartWindow.state := sw |}).
Proof.
  unfold control_v3, control_v2, SmartWindow.control; simpl.
  rewrite state_eta. repeat split.
Qed.

(** [C7] The status [isOpen] is the device-reported position, not the
    command: after forcing OPEN and a device log with [isOpen: false], the
    device is still sent OPEN while the status shows [isOpen: false]. *)
Lemma status_shows_reported :
  let s1 := fst (control_v3 {| action := JStr "open";
                               req_autoMode := JUndefined |} (initial 0)) in
  let '(s2, lr) := log {| l_temp := JNum 20; l_aqi := JNum 10;
                          l_isOpen := JBool false |} 5 s1 in
  command_out lr = OPEN /\ currentCommand s2 = OPEN /\
  v_isOpen (status s2) = JBool false.
Proof. repeat split. Qed.

(** [C7, amended] The status query and the control response both return
    windowState extended with [autoMode = (currentCommand == AUTO)]; its
    [isOpen] is the value of the last device log. *)
Theorem status_projection (s : state) (req : control_req) (r : log_req)
  (now : Z) :
  status s = view s /\
  v_isOpen (status s) = isOpen (windowState s) /\
  v_autoMode (status s) = command_eqb (currentCommand s) AUTO /\
  resp_state (snd (control_v3 req s)) = status (fst (control_v3 req s)) /\
  resp_state (snd (control_v2 req s)) = status (fst (control_v2 req s)) /\
  v_isOpen (status (fst (control_v3 req s))) = isOpen (windowState s) /\
  v_isOpen (status (fst (log r now s))) = l_isOpen r.
Proof. repeat split. Qed.

(** [C8] In the server.js 79-98 route, [autoMode === true] is tested before
    the action: [{action: "open", autoMode: true}] selects AUTO, whereas the
    part_001 route and the smart-window route force the window open. *)
Theorem action_loses_to_automode (s : state) (now : Z)
  (sw : SmartWindow.window_state) :
  currentCommand (fst (control_v2 {| action := JStr "open";
                                     req_autoMode := JBool true |} s)) = AUTO /\
  currentCommand (fst (control_v3 {| action := JStr "open";
                                     req_autoMode := JBool true |} s)) = OPEN /\
  SmartWindow.mode_of
    (fst (SmartWindow.control {| SmartWindow.action := JStr "open";
                                 SmartWindow.req_autoMode := JBool true |} now sw))
  = SmartWindow.FORCE_OPEN.
Proof. repeat split. Qed.

End CommandServerFacts.

(** ** Background refresh *)

Module ExternalCacheFacts.
Import ExternalCache.
Local Open Scope Z_scope.

(** [C9] A fetch that succeeds at the HTTP and JSON level with a falsy
    body (here [null]) does not replace the cached entry. *)
Lemma falsy_success_not_replaced :
  let c := {| weather := Some old_entry; pollution_c := None;
              lastFetched := Some 0 |} in
  weather (refreshExternalData meteo_only (HttpOk JNull) NetworkError 5000 c)
  = Some old_entry.
Proof. reflexivity. Qed.

Lemma weather_retained (e : env) (wo po : fetch_outcome) (now : Z) (c : cache) :
  truthy (safeFetchJson wo) = false ->
  weather (refreshExternalData e wo po now c) = weather c.
Proof.
  intros H. unfold refreshExternalData; simpl.
  destruct (meteosourceKey e); [now rewrite H | reflexivity].
Qed.

Lemma pollution_retained (e : env) (wo po : fetch_outcome) (now : Z)
  (c : cache) :
  truthy (safeFetchJson po) = false ->
  pollution_c (refreshExternalData e wo po now c) = pollution_c c.
Proof.
  intros H. unfold refreshExternalData; simpl.
  destruct (iqairKey e); [now rewrite H|].
  destruct (openKey e); [now rewrite H | reflexivity].
Qed.

Lemma failed_is_falsy (o : fetch_outcome) :
  failed o = true -> truthy (safeFetchJson o) = false.
Proof. destruct o; simpl; congruence. Qed.

(** [C9, amended] A failed fetch (network, HTTP or parse error) or a fetch
    whose parsed body is falsy leaves the cached entry as it was, and the
    client routes then answer from it; a fetch with a truthy body replaces
    the entry whole by [{source, fetchedAt: now, data: body}]. *)
Theorem refresh_retains_on_failure :
  (forall e wo po now c,
     failed wo = true \/ truthy (safeFetchJson wo) = false ->
     weather (refreshExternalData e wo po now c) = weather c /\
     (forall mock t, weather_route (refreshExternalData e wo po now c) mock t
                     = weather_route c mock t)) /\
  (forall e wo po now c,
     failed po = true \/ truthy (safeFetchJson po) = false ->
     pollution_c (refreshExternalData e wo po now c) = pollution_c c /\
     pollution_route (refreshExternalData e wo po now c) = pollution_route c) /\
  (forall e body po now c,
     meteosourceKey e = true -> truthy body = true ->
     weather (refreshExternalData e (HttpOk body) po now c)
     = Some {| source := "meteosource"; fetchedAt := now; data := body |}) /\
  (forall e wo body now c,
     iqairKey e = true -> truthy body = true ->
     pollution_c (refreshExternalData e wo (HttpOk body) now c)
     = Some {| source := "iqair"; fetchedAt := now; data := body |}) /\
  (forall e wo body now c,
     iqairKey e = false -> openKey e = true -> truthy body = true ->
     pollution_c (refreshExternalData e wo (HttpOk body) now c)
     = Some {| source := "openweather"; fetchedAt := now; data := body |}).
Proof.
  split; [|split; [|split; [|split]]].
  - intros e wo po now c H.
    assert (Hf : truthy (safeFetchJson wo) = false)
      by (destruct H; [apply failed_is_falsy|]; assumption).
    pose proof (weather_retained e wo po now c Hf) as Hw.
    split; [exact Hw|]. intros mock t. unfold weather_route. now rewrite Hw.
  - intros e wo po now c H.
    assert (Hf : truthy (safeFetchJson po) = false)
      by (destruct H; [apply failed_is_falsy|]; assumption).
    pose proof (pollution_retained e wo po now c Hf) as Hp.
    split; [exact Hp|]. unfold pollution_route. now rewrite Hp.
  - intros e body po now c He Hb. unfold refreshExternalData; simpl.
    now rewrite He, Hb.
  - intros e wo body now c He Hb. unfold refreshExternalData; simpl.
    now rewrite He, Hb.
  - intros e wo body now c Hi Ho Hb. unfold refreshExternalData; simpl.
    now rewrite Hi, Ho, Hb.
Qed.

Lemma refresh_retains_on_failure_witness :
  let c := {| weather := Some old_entry; pollution_c := None;
              lastFetched := Some 0 |} in
  weather (refreshExternalData meteo_only (HttpError 503) NetworkError 5000 c)
  = Some old_entry /\
  pollution_route (refreshExternalData iqair_only NetworkError ParseError 5000 c)
  = None /\
  weather (refreshExternalData meteo_only (HttpOk (JObj [])) NetworkError 5000 c)
  = Some {| source := "meteosource"; fetchedAt := 5000; data := JObj [] |} /\
  pollution_c (refreshExternalData iqair_only NetworkError (HttpOk (JArr [])) 7 c)
  = Some {| source := "iqair"; fetchedAt := 7; data := JArr [] |} /\
  pollution_c (refreshExternalData
                 {| meteosourceKey := false; iqairKey := false; openKey := true |}
                 NetworkError (HttpOk (JArr [])) 7 c)
  = Some {| source := "openweather"; fetchedAt := 7; data := JArr [] |}.
Proof.
  intros c. destruct refresh_retains_on_failure as (A & B & C & D & E).
  split; [exact (proj1 (A meteo_only (HttpError 503) NetworkError 5000 c
                          (or_introl eq_refl)))|].
  split; [exact (proj2 (B iqair_only NetworkError ParseError 5000 c
                          (or_introl eq_refl)))|].
  split; [exact (C meteo_only (JObj []) NetworkError 5000 c eq_refl eq_refl)|].
  split; [exact (D iqair_only NetworkError (JArr []) 7 c eq_refl eq_refl)|].
  exact (E {| meteosourceKey := false; iqairKey := false; openKey := true |}
           NetworkError (JArr []) 7 c eq_refl eq_refl eq_refl).
Defined.

End ExternalCacheFacts.

(** * Further properties of the code *)

(** ** Decision engine *)

Lemma js_lt_not_gt (v : num_field) (a b : Q) :
  js_lt v a = true -> (a <= b)%Q -> js_gt v b = false.
Proof.
  unfold js_lt, js_gt. destruct (to_number v) as [q|]; [|discriminate].
  intros H Hab. apply Qltb_true in H. apply Qltb_false.
  apply Qle_trans with a; [apply Qlt_le_weak; exact H | exact Hab].
Qed.

(** The two closing gates are implied by the opening gate: the decision is
    exactly "sunlight > 50 and pollution < 50 and wind < 30", evaluated
    with JavaScript comparisons. *)
Theorem decide_open_gate (w : weatherData) :
  shouldWindowBeOpen w
  = js_gt (sunlight w) 50 && js_lt (pollution w) 50 && js_lt (windSpeed w) 30.
Proof.
  unfold shouldWindowBeOpen.
  destruct (js_lt (pollution w) 50) eqn:Ep;
    [|destruct (js_gt (pollution w) 70), (js_gt (windSpeed w) 40);
      rewrite ?andb_false_r; reflexivity].
  destruct (js_lt (windSpeed w) 30) eqn:Ew;
    [|destruct (js_gt (pollution w) 70), (js_gt (windSpeed w) 40);
      rewrite ?andb_false_r; reflexivity].
  rewrite (js_lt_not_gt _ 50 70 Ep) by (unfold Qle; simpl; lia).
  rewrite (js_lt_not_gt _ 30 40 Ew) by (unfold Qle; simpl; lia).
  destruct (js_gt (sunlight w) 50); reflexivity.
Qed.

(** A reading field that is NaN or [undefined] never lets the window open
    ([null], by contrast, compares as 0). *)
Theorem decide_nan_field_closes (w : weatherData) :
  (In (pollution w) [FNaN; FUndefined] \/ In (sunlight w) [FNaN; FUndefined] \/
   In (windSpeed w) [FNaN; FUndefined]) ->
  shouldWindowBeOpen w = false.
Proof.
  intros H. rewrite decide_open_gate. unfold js_gt, js_lt.
  destruct H as [H|[H|H]]; simpl in H;
    repeat (destruct H as [H|H]; [rewrite <- H; simpl;
                                  rewrite ?andb_false_r; reflexivity|]);
    contradiction.
Qed.

Lemma decide_nan_field_closes_witness :
  shouldWindowBeOpen {| pollution := FNum 10; sunlight := FNaN;
                        windSpeed := FNum 5 |} = false.
Proof.
  apply decide_nan_field_closes. right; left. simpl. left; reflexivity.
Defined.

(** At night ([is_day] false or 0) the normalized Open-Meteo data maps to
    sunlight 0 and the decision is to close. *)
Theorem night_never_opens (n : normalized) (rnd : Z) :
  n_is_day n <> JNull -> n_is_day n <> JUndefined ->
  truthy (n_is_day n) = false ->
  sunlight (mapNormalizedToLegacy n rnd) = FNum 0 /\
  shouldWindowBeOpen (mapNormalizedToLegacy n rnd) = false.
Proof.
  intros H1 H2 H3.
  assert (Hs : sunlight (mapNormalizedToLegacy n rnd) = FNum 0).
  { unfold mapNormalizedToLegacy; simpl.
    destruct (n_is_day n); simpl in *; try congruence; rewrite H3; reflexivity. }
  split; [exact Hs|]. rewrite decide_open_gate, Hs. reflexivity.
Qed.

Lemma night_never_opens_witness :
  let n := {| n_wind_speed := FNum 5; n_is_day := JBool false;
              n_european_aqi := FNum 10 |} in
  sunlight (mapNormalizedToLegacy n 77) = FNum 0 /\
  shouldWindowBeOpen (mapNormalizedToLegacy n 77) = false.
Proof.
  apply night_never_opens; [discriminate | discriminate | reflexivity].
Defined.

(** ** Synthesized readings *)

Module SynthesisFacts.
Import Synthesis.

(** OpenWeather's index 1-5 maps to an AQI between 50 and 300, so with
    OpenWeather air-quality data the pollution gate ([< 50]) never passes
    and the decision is always to close. *)
Theorem openweather_never_opens (a : Q) (s w : num_field) :
  (1 <= a)%Q ->
  (50 <= openweather_pollution a <= 300)%Z /\
  shouldWindowBeOpen {| pollution := FNum (inject_Z (openweather_pollution a));
                        sunlight := s; windSpeed := w |} = false.
Proof.
  intros Ha.
  assert (Hr : (50 <= js_round ((a - 1) / 4 * 250 + 50))%Z).
  { unfold js_round. rewrite <- (Qfloor_Z 50) at 1. apply Qfloor_resp_le.
    unfold Qdiv. change (/ 4) with (1#4). change (inject_Z 50) with 50. lra. }
  assert (Hb : (50 <= openweather_pollution a <= 300)%Z).
  { unfold openweather_pollution. lia. }
  split; [exact Hb|].
  rewrite decide_open_gate. unfold js_lt; simpl.
  replace (Qltb (inject_Z (openweather_pollution a)) 50) with false;
    [rewrite andb_false_r; reflexivity|].
  symmetry. apply Qltb_false. change 50%Q with (inject_Z 50).
  rewrite <- Zle_Qle. lia.
Qed.

Lemma openweather_never_opens_witness :
  (50 <= openweather_pollution 1 <= 300)%Z /\
  shouldWindowBeOpen {| pollution := FNum (inject_Z (openweather_pollution 1));
                        sunlight := FNum 100; windSpeed := FNum 0 |} = false.
Proof. apply openweather_never_opens. unfold Qle; simpl; lia. Defined.

(** When the weather provider gives no numeric [current.sunlight] (or one
    of at most 50), the synthesized sunlight is at most 50 and the decision
    is to close, whatever the pollution and wind. *)
Theorem missing_sunlight_never_opens (v : jsval) (p w : num_field) :
  match v with JNum q => (q <= 50)%Q | _ => True end ->
  shouldWindowBeOpen {| pollution := p; sunlight := FNum (synth_sunlight v);
                        windSpeed := w |} = false.
Proof.
  intros Hv. rewrite decide_open_gate. unfold js_gt; simpl.
  replace (Qltb 50 (synth_sunlight v)) with false; [reflexivity|].
  symmetry. apply Qltb_false. unfold synth_sunlight.
  destruct v; try apply Qle_refl.
  destruct (Qeq_bool q 0); [apply Qle_refl | exact Hv].
Qed.

Lemma missing_sunlight_never_opens_witness :
  shouldWindowBeOpen {| pollution := FNum 10; sunlight := FNum (synth_sunlight JNull);
                        windSpeed := FNum 5 |} = false.
Proof. apply missing_sunlight_never_opens. exact I. Defined.

End SynthesisFacts.

(** ** Smart-window control and timer *)

Module SmartWindowMore.
Import SmartWindow.
Local Open Scope Z_scope.

(** In AUTO mode one timer run puts the window where the decision says,
    keeps the mode, and touches [lastUpdated] only when the position
    changes. *)
Theorem auto_tick_follows_decision (w : weatherData) (t : Z) (s : window_state) :
  truthy (autoMode s) = true ->
  isOpen (auto_tick w t s) = shouldWindowBeOpen w /\
  autoMode (auto_tick w t s) = autoMode s /\
  lastUpdated (auto_tick w t s)
  = (if Bool.eqb (isOpen s) (shouldWindowBeOpen w) then lastUpdated s else t).
Proof.
  intros H. unfold auto_tick. rewrite H. simpl.
  destruct (Bool.eqb (isOpen s) (shouldWindowBeOpen w)) eqn:E; simpl;
    repeat split; try reflexivity.
  apply Bool.eqb_prop in E. exact E.
Qed.

Lemma auto_tick_follows_decision_witness :
  isOpen (auto_tick sunny 30000 (initial 0)) = true /\
  autoMode (auto_tick sunny 30000 (initial 0)) = JBool true /\
  lastUpdated (auto_tick sunny 30000 (initial 0)) = 30000.
Proof. exact (auto_tick_follows_decision sunny 30000 (initial 0) eq_refl). Defined.

(** Running the timer twice on the same weather data is the same as
    running it once: a second run never flips the window back. *)
Theorem auto_tick_idempotent (w : weatherData) (t1 t2 : Z) (s : window_state) :
  auto_tick w t2 (auto_tick w t1 s) = auto_tick w t1 s.
Proof.
  unfold auto_tick.
  destruct (truthy (autoMode s)) eqn:Ha; simpl; [|rewrite Ha; reflexivity].
  destruct (Bool.eqb (isOpen s) (shouldWindowBeOpen w)) eqn:E; simpl.
  - rewrite Ha, E. reflexivity.
  - rewrite Ha, Bool.eqb_reflx. reflexivity.
Qed.

(** A control request without an "open"/"close" action but with an
    [autoMode] field only stores that field: the position and
    [lastUpdated] stay; if the field is truthy the next timer run follows
    the decision. *)
Theorem set_auto_keeps_position (a v : jsval) (now t : Z) (w : weatherData)
  (s : window_state) :
  is_str a "open" = false -> is_str a "close" = false -> defined v = true ->
  fst (control {| action := a; req_autoMode := v |} now s)
  = {| isOpen := isOpen s; lastUpdated := lastUpdated s; autoMode := v |} /\
  (truthy v = true ->
   isOpen (auto_tick w t (fst (control {| action := a; req_autoMode := v |} now s)))
   = shouldWindowBeOpen w).
Proof.
  intros Ho Hc Hv.
  assert (E : fst (control {| action := a; req_autoMode := v |} now s)
              = {| isOpen := isOpen s; lastUpdated := lastUpdated s;
                   autoMode := v |}).
  { unfold control; simpl. rewrite Hv, Ho, Hc. reflexivity. }
  split; [exact E|]. intros Ht. rewrite E.
  exact (proj1 (auto_tick_follows_decision w t
    {| isOpen := isOpen s; lastUpdated := lastUpdated s; autoMode := v |} Ht)).
Qed.

Lemma set_auto_keeps_position_witness :
  let s := {| isOpen := true; lastUpdated := 5; autoMode := JBool false |} in
  fst (control {| action := JUndefined; req_autoMode := JBool true |} 9 s)
  = {| isOpen := true; lastUpdated := 5; autoMode := JBool true |} /\
  (truthy (JBool true) = true ->
   isOpen (auto_tick smoggy 10
             (fst (control {| action := JUndefined; req_autoMode := JBool true |} 9 s)))
   = shouldWindowBeOpen smoggy).
Proof.
  exact (set_auto_keeps_position JUndefined (JBool true) 9 10 smoggy _
           eq_refl eq_refl eq_refl).
Defined.

(** The web client's [toggleAutoMode] sends the negation of the mode it
    displays; sent with the server's current state it flips auto mode
    without moving the window, and two toggles restore the mode. *)
Theorem web_toggle_flips (now : Z) (s : window_state) :
  let s1 := fst (control (Clients.to_sw (Clients.web_toggleAutoMode (autoMode s))) now s) in
  let s2 := fst (control (Clients.to_sw (Clients.web_toggleAutoMode (autoMode s1))) now s1) in
  truthy (autoMode s1) = negb (truthy (autoMode s)) /\
  isOpen s1 = isOpen s /\ lastUpdated s1 = lastUpdated s /\
  truthy (autoMode s2) = truthy (autoMode s) /\ isOpen s2 = isOpen s.
Proof.
  simpl. destruct (truthy (autoMode s)); simpl; repeat split.
Qed.

End SmartWindowMore.

(** ** Command variants: device log, control routes, clients *)

Module CommandServerMore.
Import CommandServer.
Local Open Scope Z_scope.

(** Every control route is idempotent: repeating a request (at the same
    time, for the smart-window route) leaves the state as after the first
    delivery. *)
Theorem control_idempotent (req : control_req) (s : state)
  (sreq : SmartWindow.control_req) (now : Z) (sw : SmartWindow.window_state) :
  fst (control_v2 req (fst (control_v2 req s))) = fst (control_v2 req s) /\
  fst (control_v3 req (fst (control_v3 req s))) = fst (control_v3 req s) /\
  fst (SmartWindow.control sreq now (fst (SmartWindow.control sreq now sw)))
  = fst (SmartWindow.control sreq now sw).
Proof.
  split; [|split].
  - unfold control_v2; simpl.
    destruct (is_true_lit (req_autoMode req)); [reflexivity|].
    destruct (is_str (action req) "open"); [reflexivity|].
    destruct (is_str (action req) "close"); reflexivity.
  - unfold control_v3; simpl.
    destruct (is_str (action req) "open"); [reflexivity|].
    destruct (is_str (action req) "close"); [reflexivity|].
    destruct (is_true_lit (req_autoMode req)); [reflexivity|].
    destruct (is_false_lit (req_autoMode req)); reflexivity.
  - unfold SmartWindow.control; simpl.
    destruct (defined (SmartWindow.req_autoMode sreq)) eqn:Ed;
      destruct (is_str (SmartWindow.action sreq) "open" ||
                is_str (SmartWindow.action sreq) "close"); simpl;
      rewrite ?Ed; reflexivity.
Qed.

(** The mobile client's requests on the three control routes:
    [sendCommand] ([{action, autoMode: false}]) forces the window
    everywhere and [toggleAutoMode(true)] selects AUTO everywhere, but
    [toggleAutoMode(false)] gives three behaviours: the smart-window route
    keeps the position in manual mode, the part_001 route freezes the
    reported position, and the server.js 79-98 route leaves the command as
    it was (AUTO stays AUTO). *)
Theorem mobile_requests (a : string) (s : state) (now : Z)
  (sw : SmartWindow.window_state) :
  a = "open" \/ a = "close" ->
  (SmartWindow.isOpen (fst (SmartWindow.control
      (Clients.to_sw (Clients.mobile_sendCommand a)) now sw)) = String.eqb a "open" /\
   SmartWindow.mode_of (fst (SmartWindow.control
      (Clients.to_sw (Clients.mobile_sendCommand a)) now sw)) <> SmartWindow.AUTO /\
   currentCommand (fst (control_v2 (Clients.to_cmd (Clients.mobile_sendCommand a)) s))
   = cmd_of a /\
   currentCommand (fst (control_v3 (Clients.to_cmd (Clients.mobile_sendCommand a)) s))
   = cmd_of a) /\
  (SmartWindow.mode_of (fst (SmartWindow.control
      (Clients.to_sw (Clients.mobile_toggleAutoMode true)) now sw)) = SmartWindow.AUTO /\
   currentCommand (fst (control_v2 (Clients.to_cmd (Clients.mobile_toggleAutoMode true)) s))
   = AUTO /\
   currentCommand (fst (control_v3 (Clients.to_cmd (Clients.mobile_toggleAutoMode true)) s))
   = AUTO) /\
  (SmartWindow.isOpen (fst (SmartWindow.control
      (Clients.to_sw (Clients.mobile_toggleAutoMode false)) now sw)) = SmartWindow.isOpen sw /\
   SmartWindow.mode_of (fst (SmartWindow.control
      (Clients.to_sw (Clients.mobile_toggleAutoMode false)) now sw)) <> SmartWindow.AUTO /\
   currentCommand (fst (control_v3 (Clients.to_cmd (Clients.mobile_toggleAutoMode false)) s))
   = (if truthy (isOpen (windowState s)) then OPEN else CLOSE) /\
   currentCommand (fst (control_v2 (Clients.to_cmd (Clients.mobile_toggleAutoMode false)) s))
   = currentCommand s).
Proof.
  intros Ha. split; [|split].
  - destruct Ha as [-> | ->]; unfold SmartWindow.mode_of; simpl;
      repeat split; discriminate.
  - repeat split.
  - unfold SmartWindow.mode_of; simpl. repeat split.
    destruct (SmartWindow.isOpen sw); discriminate.
Qed.

Lemma mobile_requests_witness :
  let s := initial 0 in
  let sw := SmartWindow.initial 0 in
  currentCommand (fst (control_v2 (Clients.to_cmd (Clients.mobile_sendCommand "open")) s))
  = OPEN /\
  currentCommand (fst (control_v2 (Clients.to_cmd (Clients.mobile_toggleAutoMode false)) s))
  = AUTO.
Proof.
  intros s sw.
  destruct (mobile_requests "open" s 0 sw (or_introl eq_refl))
    as ((_ & _ & H1 & _) & _ & (_ & _ & _ & H2)).
  split; [exact H1 | exact H2].
Defined.

End CommandServerMore.

(** ** Background refresh of the [cached] object *)

Module ExternalCacheMore.
Import ExternalCache.
Local Open Scope Z_scope.

(** A refresh never removes a cached entry, always stamps [lastFetched]
    with its time (even when every fetch failed), and with no API key set
    leaves both entries as they were. *)
Theorem refresh_never_removes (e : env) (wo po : fetch_outcome) (now : Z)
  (c : cache) :
  (weather c <> None -> weather (refreshExternalData e wo po now c) <> None) /\
  (pollution_c c <> None ->
   pollution_c (refreshExternalData e wo po now c) <> None) /\
  lastFetched (refreshExternalData e wo po now c) = Some now /\
  (meteosourceKey e = false -> iqairKey e = false -> openKey e = false ->
   weather (refreshExternalData e wo po now c) = weather c /\
   pollution_c (refreshExternalData e wo po now c) = pollution_c c).
Proof.
  unfold refreshExternalData; simpl. split; [|split; [|split]].
  - intros H. destruct (meteosourceKey e); [|exact H].
    destruct (truthy (safeFetchJson wo)); [discriminate | exact H].
  - intros H. destruct (iqairKey e).
    + destruct (truthy (safeFetchJson po)); [discriminate | exact H].
    + destruct (openKey e); [|exact H].
      destruct (truthy (safeFetchJson po)); [discriminate | exact H].
  - reflexivity.
  - intros H1 H2 H3. rewrite H1, H2, H3. split; reflexivity.
Qed.

Lemma refresh_never_removes_witness :
  let c := {| weather := Some old_entry; pollution_c := None;
              lastFetched := None |} in
  weather (refreshExternalData meteo_only NetworkError NetworkError 9 c) <> None /\
  weather (refreshExternalData
             {| meteosourceKey := false; iqairKey := false; openKey := false |}
             NetworkError NetworkError 9 c) = weather c.
Proof.
  intros c. destruct (refresh_never_removes meteo_only NetworkError NetworkError 9 c)
    as (H1 & _ & _ & _).
  destruct (refresh_never_removes
              {| meteosourceKey := false; iqairKey := false; openKey := false |}
              NetworkError NetworkError 9 c) as (_ & _ & _ & H4).
  split; [apply H1; discriminate | exact (proj1 (H4 eq_refl eq_refl eq_refl))].
Defined.

End ExternalCacheMore.

(** ** Open-Meteo cache *)

Module OpenMeteoCacheFacts.
Import OpenMeteoCache.
Local Open Scope Z_scope.

Lemma obj_get_set_same (k : string) (v : entry) (c : cache) :
  obj_get k (obj_set k v c) = Some v.
Proof.
  induction c as [|[k' v'] rest IH]; simpl.
  - now rewrite String.eqb_refl.
  - destruct (String.eqb k k') eqn:E; simpl; rewrite E; [reflexivity | exact IH].
Qed.

Lemma obj_get_set_other (k k' : string) (v : entry) (c : cache) :
  k <> k' -> obj_get k' (obj_set k v c) = obj_get k' c.
Proof.
  intros Hne. induction c as [|[k0 v0] rest IH]; simpl.
  - destruct (String.eqb k' k) eqn:E; [|reflexivity].
    apply String.eqb_eq in E. congruence.
  - destruct (String.eqb k k0) eqn:E; simpl.
    + apply String.eqb_eq in E. subst k0.
      destruct (String.eqb k' k) eqn:E'; [|reflexivity].
      apply String.eqb_eq in E'. congruence.
    + destruct (String.eqb k' k0); [reflexivity | exact IH].
Qed.

Lemma obj_keys_set (k : string) (v : entry) (c : cache) :
  obj_keys (obj_set k v c)
  = if obj_get k c then obj_keys c else app (obj_keys c) [k].
Proof.
  induction c as [|[k0 v0] rest IH]; simpl; [reflexivity|].
  destruct (String.eqb k k0) eqn:E; simpl.
  - apply String.eqb_eq in E. subst. reflexivity.
  - rewrite IH. destruct (obj_get k rest); reflexivity.
Qed.

(** The Open-Meteo route serves a fresh cached entry without using the
    fetch; otherwise a successful fetch is stored under the key with the
    current time and returned, leaving the other keys alone, and a failed
    fetch answers 500 and leaves the cache untouched (a stale entry
    included). *)
Theorem open_meteo_route_spec (lat lon : string) (ttl now : Z)
  (fetched : option jsval) (c : cache) :
  (forall en, obj_get (cacheKey lat lon) c = Some en -> now - fetchedAt en < ttl ->
   open_meteo_route lat lon ttl now fetched c = (c, ServedCached (data en))) /\
  (forall r, fetched = Some r ->
   (forall en, obj_get (cacheKey lat lon) c = Some en -> ttl <= now - fetchedAt en) ->
   snd (open_meteo_route lat lon ttl now fetched c) = ServedFresh r /\
   obj_get (cacheKey lat lon) (fst (open_meteo_route lat lon ttl now fetched c))
   = Some {| fetchedAt := now; data := r |} /\
   (forall k, k <> cacheKey lat lon ->
    obj_get k (fst (open_meteo_route lat lon ttl now fetched c)) = obj_get k c)) /\
  (fetched = None ->
   (forall en, obj_get (cacheKey lat lon) c = Some en -> ttl <= now - fetchedAt en) ->
   open_meteo_route lat lon ttl now fetched c = (c, ServerError)).
Proof.
  unfold open_meteo_route. split; [|split].
  - intros en He Hf. rewrite He. apply Z.ltb_lt in Hf. now rewrite Hf.
  - intros r -> Hst.
    destruct (obj_get (cacheKey lat lon) c) as [en|] eqn:E.
    + specialize (Hst en eq_refl).
      replace (now - fetchedAt en <? ttl) with false
        by (symmetry; apply Z.ltb_ge; exact Hst).
      simpl. split; [reflexivity|]. split; [apply obj_get_set_same|].
      intros k Hk. apply obj_get_set_other. congruence.
    + simpl. split; [reflexivity|]. split; [apply obj_get_set_same|].
      intros k Hk. apply obj_get_set_other. congruence.
  - intros -> Hst.
    destruct (obj_get (cacheKey lat lon) c) as [en|] eqn:E; [|reflexivity].
    specialize (Hst en eq_refl).
    replace (now - fetchedAt en <? ttl) with false
      by (symmetry; apply Z.ltb_ge; exact Hst).
    reflexivity.
Qed.

Lemma open_meteo_route_spec_witness :
  let c := [("45.1885,5.7245", {| fetchedAt := 0; data := JNull |})] in
  open_meteo_route "45.1885" "5.7245" 3600000 10 (Some (JArr [])) c
  = (c, ServedCached JNull) /\
  open_meteo_route "45.1885" "5.7245" 3600000 3600000 None c = (c, ServerError).
Proof.
  intros c.
  destruct (open_meteo_route_spec "45.1885" "5.7245" 3600000 10 (Some (JArr [])) c)
    as (A & _ & _).
  destruct (open_meteo_route_spec "45.1885" "5.7245" 3600000 3600000 None c)
    as (_ & _ & C).
  split.
  - apply (A {| fetchedAt := 0; data := JNull |}); [reflexivity | reflexivity].
  - apply C; [reflexivity|]. intros en H. simpl in H. injection H as <-.
    simpl. lia.
Defined.

Lemma split_char_no_sep (c : ascii) (s : string) :
  ~ In c (list_ascii_of_string s) -> split_char c s = [s].
Proof.
  induction s as [|a rest IH]; simpl; intros H; [reflexivity|].
  rewrite IH by tauto.
  destruct (Ascii.eqb a c) eqn:E; [|reflexivity].
  apply Ascii.eqb_eq in E. subst. tauto.
Qed.

Lemma split_char_app (c : ascii) (s1 s2 : string) :
  ~ In c (list_ascii_of_string s1) ->
  split_char c (s1 ++ String c s2) = s1 :: split_char c s2.
Proof.
  induction s1 as [|a rest IH]; simpl; intros H.
  - now rewrite Ascii.eqb_refl.
  - rewrite IH by tauto.
    destruct (Ascii.eqb a c) eqn:E; [|reflexivity].
    apply Ascii.eqb_eq in E. subst. tauto.
Qed.

(** The scheduled refresh reads the coordinates back from the cache key:
    for coordinates without a comma, splitting [`${lat},${lon}`] on ','
    gives back [lat] and [lon]. *)
Theorem cacheKey_roundtrip (lat lon : string) :
  ~ In ","%char (list_ascii_of_string lat) ->
  ~ In ","%char (list_ascii_of_string lon) ->
  split_key (cacheKey lat lon) = (Some lat, Some lon).
Proof.
  intros Hlat Hlon. unfold split_key, cacheKey.
  change ("," ++ lon) with (String "," lon).
  rewrite split_char_app by exact Hlat.
  rewrite split_char_no_sep by exact Hlon. reflexivity.
Qed.

Lemma cacheKey_roundtrip_witness :
  split_key (cacheKey "45.1885" "5.7245") = (Some "45.1885", Some "5.7245").
Proof.
  apply cacheKey_roundtrip; simpl; intros H;
    repeat (destruct H as [H|H]; [discriminate|]); exact H.
Defined.


Lemma obj_get_in_keys (k : string) (c : cache) :
  In k (obj_keys c) -> obj_get k c <> None.
Proof.
  induction c as [|[k0 v0] rest IH]; simpl; [tauto|].
  intros [H|H].
  - subst. rewrite String.eqb_refl. discriminate.
  - destruct (String.eqb k k0); [discriminate | exact (IH H)].
Qed.

Section Refresh.
Variable fetch : option string -> option string -> option jsval.
Variable clock : string -> Z.

Lemma refresh_key_step (k : string) (c : cache) :
  (let '(lat, lon) := split_key k in
   match fetch lat lon with
   | Some r => obj_set k {| fetchedAt := clock k; data := r |} c
   | None => c
   end)
  = match fetch (fst (split_key k)) (snd (split_key k)) with
    | Some r => obj_set k {| fetchedAt := clock k; data := r |} c
    | None => c
    end.
Proof. destruct (split_key k); reflexivity. Qed.

Lemma refresh_keys_keys (keys : list string) (c : cache) :
  (forall k, In k keys -> obj_get k c <> None) ->
  obj_keys (refresh_keys keys fetch clock c) = obj_keys c.
Proof.
  revert c; induction keys as [|k rest IH]; intros c H; simpl; [reflexivity|].
  rewrite refresh_key_step.
  destruct (fetch (fst (split_key k)) (snd (split_key k))) as [r|].
  - rewrite IH.
    + rewrite obj_keys_set. destruct (obj_get k c) eqn:E; [reflexivity|].
      exfalso. apply (H k); [left; reflexivity | exact E].
    + intros k' Hk'. destruct (String.eqb_spec k k') as [<-|Hne].
      * rewrite obj_get_set_same. discriminate.
      * rewrite obj_get_set_other by exact Hne. apply H. right; exact Hk'.
  - apply IH. intros k' Hk'. apply H. right; exact Hk'.
Qed.

Lemma refresh_keys_notin (keys : list string) (c : cache) (k : string) :
  ~ In k keys -> obj_get k (refresh_keys keys fetch clock c) = obj_get k c.
Proof.
  revert c; induction keys as [|k0 rest IH]; intros c H; simpl in *; [reflexivity|].
  rewrite refresh_key_step.
  destruct (fetch (fst (split_key k0)) (snd (split_key k0))) as [r|].
  - rewrite IH by tauto. apply obj_get_set_other. intros ->. tauto.
  - apply IH. tauto.
Qed.

Lemma refresh_keys_in (keys : list string) (c : cache) (k : string) :
  NoDup keys -> In k keys ->
  obj_get k (refresh_keys keys fetch clock c) = refreshed fetch clock c k.
Proof.
  revert c; induction keys as [|k0 rest IH]; intros c Hnd Hin; simpl in *; [tauto|].
  inversion Hnd as [|? ? Hk0 Hnd']; subst.
  rewrite refresh_key_step. unfold refreshed.
  destruct Hin as [->|Hin].
  - destruct (fetch (fst (split_key k)) (snd (split_key k))) as [r|] eqn:E.
    + rewrite refresh_keys_notin by exact Hk0. apply obj_get_set_same.
    + rewrite refresh_keys_notin by exact Hk0. reflexivity.
  - assert (Hne : k0 <> k) by (intros ->; tauto).
    destruct (fetch (fst (split_key k0)) (snd (split_key k0))) as [r|].
    + rewrite IH by assumption. unfold refreshed.
      rewrite obj_get_set_other by exact Hne. reflexivity.
    + rewrite IH by assumption. reflexivity.
Qed.

End Refresh.

(** The hourly refresh of the Open-Meteo cache keeps exactly the keys it
    had (same order); each key's entry becomes the fetch result for the
    coordinates read from the key, stamped with that fetch's completion
    time, or stays as it was when that fetch failed. *)
Theorem scheduled_refresh_spec
  (fetch : option string -> option string -> option jsval)
  (clock : string -> Z) (c : cache) :
  NoDup (obj_keys c) ->
  obj_keys (scheduled_refresh fetch clock c) = obj_keys c /\
  (forall k, In k (obj_keys c) ->
   obj_get k (scheduled_refresh fetch clock c) = refreshed fetch clock c k) /\
  (forall k, ~ In k (obj_keys c) ->
   obj_get k (scheduled_refresh fetch clock c) = None).
Proof.
  intros Hnd. unfold scheduled_refresh. split; [|split].
  - apply refresh_keys_keys. intros k Hk. apply obj_get_in_keys. exact Hk.
  - intros k Hk. apply refresh_keys_in; assumption.
  - intros k Hk. rewrite refresh_keys_notin by exact Hk.
    destruct (obj_get k c) eqn:E; [|reflexivity].
    exfalso. apply Hk. clear Hnd Hk. induction c as [|[k0 v0] rest IH];
      simpl in *; [discriminate|].
    destruct (String.eqb_spec k k0); [left; congruence | right; auto].
Qed.

Lemma scheduled_refresh_spec_witness :
  let c := [("45.1885,5.7245", {| fetchedAt := 0; data := JNull |});
            ("1,2", {| fetchedAt := 0; data := JNull |})] in
  let fetch := fun (lat lon : option string) =>
                 match lat with Some "1" => None | _ => Some (JArr []) end in
  obj_keys (scheduled_refresh fetch (fun _ => 7) c) = obj_keys c /\
  (forall k, In k (obj_keys c) ->
   obj_get k (scheduled_refresh fetch (fun _ => 7) c)
   = refreshed fetch (fun _ => 7) c k) /\
  (forall k, ~ In k (obj_keys c) ->
   obj_get k (scheduled_refresh fetch (fun _ => 7) c) = None).
Proof.
  intros c fetch. apply scheduled_refresh_spec. subst c; simpl.
  constructor; [simpl; intros [H|H]; [discriminate | exact H]|].
  constructor; [simpl; tauto | constructor].
Defined.

(** [getWeatherData] uses a cached entry for the default key whatever its
    age (no TTL check) and without fetching; with no entry it stores and
    uses a successful fetch, and falls back to the mock generator, cache
    unchanged, when the fetch fails. *)
Theorem getWeatherData_spec (key : string) (now : Z) (fetched : option jsval)
  (c : cache) :
  (forall en, obj_get key c = Some en ->
   getWeatherData key now fetched c = (c, FromCache (data en))) /\
  (obj_get key c = None -> fetched = None ->
   getWeatherData key now fetched c = (c, FromMock)) /\
  (forall r, obj_get key c = None -> fetched = Some r ->
   getWeatherData key now fetched c
   = (obj_set key {| fetchedAt := now; data := r |} c, FromFetch r) /\
   obj_get key (fst (getWeatherData key now fetched c))
   = Some {| fetchedAt := now; data := r |}).
Proof.
  unfold getWeatherData. split; [|split].
  - intros en -> . reflexivity.
  - intros -> ->. reflexivity.
  - intros r -> ->. split; [reflexivity|]. apply obj_get_set_same.
Qed.

Lemma getWeatherData_spec_witness :
  let c := [("45.1885,5.7245", {| fetchedAt := 0; data := JNull |})] in
  getWeatherData "45.1885,5.7245" 999999999 None c = (c, FromCache JNull) /\
  getWeatherData "1,2" 5 None c = (c, FromMock).
Proof.
  intros c.
  destruct (getWeatherData_spec "45.1885,5.7245" 999999999 None c) as (A & _ & _).
  destruct (getWeatherData_spec "1,2" 5 None c) as (_ & B & _).
  split; [apply (A {| fetchedAt := 0; data := JNull |}); reflexivity|].
  apply B; reflexivity.
Defined.

End OpenMeteoCacheFacts.

(** ** ESP32 firmware *)

Module FirmwareFacts.
Import Firmware.
Local Open Scope Z_scope.

(** The firmware moves the servo only after a connected, successful
    (positive code) and parseable API call; it then opens (90 degrees)
    exactly when the temperature is at most 30 and the AQI at most 50, a
    null AQI counting as 0, and closes (0 degrees) otherwise. *)
Theorem firmware_servo (wifi : bool) (code : Z) (parsed : option doc) :
  (loop_step wifi code parsed = None <->
   wifi = false \/ code <= 0 \/ parsed = None) /\
  (forall d, wifi = true -> 0 < code -> parsed = Some d ->
   (loop_step wifi code parsed = Some 90 <->
    (temp_of d <= 30)%Q /\ aqi_of d <= 50) /\
   (loop_step wifi code parsed = Some 0 <->
    (30 < temp_of d)%Q \/ 50 < aqi_of d)) /\
  (forall t, loop_step wifi code (Some {| temperature_2m := t; european_aqi := None |})
             = loop_step wifi code (Some {| temperature_2m := t; european_aqi := Some 0 |})).
Proof.
  split; [|split].
  - unfold loop_step. destruct wifi; simpl.
    + destruct (Z.ltb_spec 0 code) as [Hc|Hc].
      * destruct parsed as [d|].
        -- split; [|intros [H1|[H1|H1]]; [discriminate | lia | discriminate]].
           destruct (_ || _); discriminate.
        -- split; intros _; [right; right; reflexivity | reflexivity].
      * split; intros _; [right; left; exact Hc | reflexivity].
    + split; intros _; [left; reflexivity | reflexivity].
  - intros d -> Hc ->. unfold loop_step; simpl.
    replace (0 <? code) with true by (symmetry; apply Z.ltb_lt; exact Hc).
    unfold SEUIL_TEMP, SEUIL_POLLUTION.
    destruct (Qltb 30 (temp_of d)) eqn:Et; destruct (Z.ltb_spec 50 (aqi_of d)) as [Ha|Ha];
      simpl.
    + apply Qltb_true in Et. split; split; intros H; try discriminate; try reflexivity.
      * destruct H as [H _]. exfalso. exact (Qlt_not_le _ _ Et H).
      * left; exact Et.
    + apply Qltb_true in Et. split; split; intros H; try discriminate; try reflexivity.
      * destruct H as [H _]. exfalso. exact (Qlt_not_le _ _ Et H).
      * left; exact Et.
    + apply Qltb_false in Et. split; split; intros H; try discriminate; try reflexivity.
      * destruct H as [_ H]. lia.
      * right; exact Ha.
    + apply Qltb_false in Et. split; split; intros H; try discriminate; try reflexivity.
      * split; [exact Et | exact Ha].
      * destruct H as [H|H]; [exfalso; exact (Qlt_not_le _ _ H Et) | lia].
  - intros t. reflexivity.
Qed.

Lemma firmware_servo_witness :
  loop_step true 200 (Some {| temperature_2m := Some 21%Q; european_aqi := None |})
  = Some 90.
Proof.
  destruct (firmware_servo true 200
              (Some {| temperature_2m := Some 21%Q; european_aqi := None |}))
    as (_ & H & _).
  apply (proj1 (H _ eq_refl ltac:(lia) eq_refl)).
  split; [unfold temp_of; simpl; unfold Qle; simpl; lia | unfold aqi_of; simpl; lia].
Defined.

End FirmwareFacts.

(** ** Web dashboard colours *)

Module ClientsFacts.
Import Clients.

(** [getStatusColor] is green exactly below [low], and with [low <= high]
    it never goes back down: a larger value never gets a less severe
    colour. *)
Theorem status_color_monotone (low high v1 v2 : Q) :
  (low <= high)%Q -> (v1 <= v2)%Q ->
  (getStatusColor v1 low high = Green <-> (v1 < low)%Q) /\
  (color_rank (getStatusColor v1 low high)
   <= color_rank (getStatusColor v2 low high))%nat.
Proof.
  intros Hlh H12. unfold getStatusColor. split.
  - destruct (Qltb v1 low) eqn:E1.
    + apply Qltb_true in E1. split; [intros; exact E1 | reflexivity].
    + apply Qltb_false in E1. split.
      * destruct (Qltb v1 high); discriminate.
      * intros H. exfalso. exact (Qlt_not_le _ _ H E1).
  - destruct (Qltb v1 low) eqn:E1; [simpl; lia|].
    destruct (Qltb v2 low) eqn:E2.
    + apply Qltb_false in E1. apply Qltb_true in E2. exfalso.
      apply (Qlt_not_le _ _ E2). apply Qle_trans with v1; assumption.
    + destruct (Qltb v1 high) eqn:E3; destruct (Qltb v2 high) eqn:E4; simpl; try lia.
      apply Qltb_false in E3. apply Qltb_true in E4. exfalso.
      apply (Qlt_not_le _ _ E4). apply Qle_trans with v1; assumption.
Qed.

Lemma status_color_monotone_witness :
  (getStatusColor 30 50 100 = Green <-> (30 < 50)%Q) /\
  (color_rank (getStatusColor 30 50 100) <= color_rank (getStatusColor 120 50 100))%nat.
Proof.
  apply status_color_monotone; unfold Qle; simpl; lia.
Defined.

End ClientsFacts.
